(** * Connection executor of BeakDash (src/server/routes.processed.ts)

    A shallow embedding of the dataset-data route, the dataset-query
    fragment, and the three SQL connection routes (table schema, table
    listing, custom query).  Express handlers are modelled as computations in
    a small trace-and-exception monad: every observable side effect (storage
    lookup, pool creation, query, pool close, CSV parse, outbound fetch) is
    appended to a trace, and thrown JavaScript errors are carried as
    exceptions with their message. *)

From Stdlib Require Import String List ZArith Bool Ascii Lia.
Set Warnings "-register-all".
Import ListNotations.
Open Scope string_scope.

(** ** JavaScript values: the [Record<string, any>] config bags *)

Inductive jsval : Type :=
| JNull
| JBool (b : bool)
| JNum (z : Z)
| JStr (s : string)
| JArr (l : list jsval)
| JObj (fields : list (string * jsval)).

(** A property read [v.k]; [None] is [undefined].  Reads on non-objects
    yield [undefined]. *)
Fixpoint assoc_get (k : string) (l : list (string * jsval)) : option jsval :=
  match l with
  | [] => None
  | (k', v) :: r => if String.eqb k k' then Some v else assoc_get k r
  end.

Definition jget (v : option jsval) (k : string) : option jsval :=
  match v with
  | Some (JObj l) => assoc_get k l
  | _ => None
  end.

(** JavaScript truthiness of a possibly-undefined value. *)
Definition truthy (v : option jsval) : bool :=
  match v with
  | None | Some JNull => false
  | Some (JBool b) => b
  | Some (JNum z) => negb (Z.eqb z 0)
  | Some (JStr s) => negb (String.eqb s "")
  | Some (JArr _) | Some (JObj _) => true
  end.

(** [a || b] on possibly-undefined values. *)
Definition js_or (a b : option jsval) : option jsval :=
  if truthy a then a else b.

(** String conversion as done by template literals [`${v}`]. *)
Fixpoint digits_rev (fuel : nat) (n : Z) : string :=
  match fuel with
  | O => ""
  | S f =>
      let d := Z.to_nat (n mod 10) in
      let c := String (ascii_of_nat (48 + d)) "" in
      if Z.ltb n 10 then c else digits_rev f (n / 10) ++ c
  end.

Definition z_to_string (z : Z) : string :=
  if Z.ltb z 0 then "-" ++ digits_rev 64 (- z) else digits_rev 64 z.

Fixpoint js_to_string (v : jsval) : string :=
  match v with
  | JNull => "null"
  | JBool true => "true"
  | JBool false => "false"
  | JNum z => z_to_string z
  | JStr s => s
  | JArr l =>
      (fix go (l : list jsval) : string :=
         match l with
         | [] => ""
         | [x] => js_to_string x
         | x :: r => js_to_string x ++ "," ++ go r
         end) l
  | JObj _ => "[object Object]"
  end.

Definition tmpl (v : option jsval) : string :=
  match v with
  | None => "undefined"
  | Some x => js_to_string x
  end.

(** Object spread [{...o, k: v}]: an existing key keeps its position and
    takes the new value, a new key is appended. *)
Fixpoint assoc_set (k : string) (v : jsval) (l : list (string * jsval))
  : list (string * jsval) :=
  match l with
  | [] => [(k, v)]
  | (k', v') :: r =>
      if String.eqb k k' then (k, v) :: r else (k', v') :: assoc_set k v r
  end.

(** Spreading [undefined] or a non-object contributes no keys. *)
Definition spread_fields (v : option jsval) : list (string * jsval) :=
  match v with
  | Some (JObj l) => l
  | _ => []
  end.

(** ** Base64, as [Buffer.from(s).toString('base64')]

    Rocq strings are byte strings, so [list_ascii_of_string] is the byte
    sequence that [Buffer.from] produces for them. *)

Definition b64_alphabet : string :=
  "ABCDEFGHIJKLMNOPQRSTUVWXYZabcdefghijklmnopqrstuvwxyz0123456789+/".

Definition b64_char (n : Z) : string :=
  match String.get (Z.to_nat (Z.land n 63)) b64_alphabet with
  | Some c => String c ""
  | None => ""
  end.

Definition byte (a : ascii) : Z := Z.of_nat (nat_of_ascii a).

Fixpoint base64_bytes (l : list ascii) : string :=
  match l with
  | a :: b :: c :: r =>
      let x := Z.lor (Z.shiftl (byte a) 16) (Z.lor (Z.shiftl (byte b) 8) (byte c)) in
      b64_char (Z.shiftr x 18) ++ b64_char (Z.shiftr x 12)
        ++ b64_char (Z.shiftr x 6) ++ b64_char x ++ base64_bytes r
  | [a; b] =>
      let x := Z.lor (Z.shiftl (byte a) 16) (Z.shiftl (byte b) 8) in
      b64_char (Z.shiftr x 18) ++ b64_char (Z.shiftr x 12)
        ++ b64_char (Z.shiftr x 6) ++ "="
  | [a] =>
      let x := Z.shiftl (byte a) 16 in
      b64_char (Z.shiftr x 18) ++ b64_char (Z.shiftr x 12) ++ "=="
  | [] => ""
  end.

Definition base64 (s : string) : string := base64_bytes (list_ascii_of_string s).


(** ** Records of the registries (shared/schema) *)

Record dataset := mkDataset {
  ds_id : Z;
  ds_connectionId : option Z;     (** nullable foreign key *)
  ds_query : option string;       (** nullable text *)
  ds_config : jsval                (** json, [JNull] when null *)
}.

Record connection := mkConnection {
  conn_id : Z;
  conn_type : string;
  conn_config : jsval
}.

(** Options handed to [parseCSV]. *)
Record csv_options := mkCsvOptions {
  delimiter : jsval;
  hasHeaders : bool;
  quoteChar : jsval;
  trimFields : bool
}.

(** The [RequestInit] built for [fetch]; [fo_body] is the value passed to
    [JSON.stringify]. *)
Record fetch_options := mkFetchOptions {
  fo_headers : option jsval;
  fo_method : jsval;
  fo_body : option jsval
}.

Record fetch_response := mkFetchResponse {
  resp_status : Z;
  resp_statusText : string
}.

(** [response.ok]: the status is in the range 200-299. *)
Definition resp_ok (r : fetch_response) : bool :=
  (200 <=? resp_status r)%Z && (resp_status r <=? 299)%Z.

(** What [res.status(s).json(b)] sends. *)
Record response := mkResponse { status : Z; body : jsval }.

Definition msg_body (m : string) : jsval := JObj [("message", JStr m)].
Definition err_body (m e : string) : jsval :=
  JObj [("message", JStr m); ("error", JStr e)].

(** ** Observable effects *)

Inductive event : Type :=
| EvGetDataset (id : Z)
| EvGetConnection (id : jsval)
| EvBuildPgConnectionString (config : jsval)
| EvPoolNew (connectionString : jsval)
| EvPoolQuery (sql : string) (params : list jsval)
| EvPoolEnd
| EvParseCSV (content : jsval) (opts : csv_options)
| EvFetch (url : jsval) (opts : fetch_options).

Definition is_pool_event (e : event) : bool :=
  match e with
  | EvPoolNew _ | EvPoolQuery _ _ | EvPoolEnd => true
  | _ => false
  end.

Definition is_query_event (e : event) : bool :=
  match e with EvPoolQuery _ _ => true | _ => false end.

(** ** The handler monad: a trace of effects and JavaScript exceptions *)

Inductive outcome (A : Type) : Type :=
| Ok (a : A)
| Exc (msg : string).
Arguments Ok {A} a.
Arguments Exc {A} msg.

Definition M (A : Type) : Type := list event -> outcome A * list event.

Definition ret {A} (a : A) : M A := fun tr => (Ok a, tr).

Definition bind {A B} (m : M A) (f : A -> M B) : M B :=
  fun tr =>
    match m tr with
    | (Ok a, tr') => f a tr'
    | (Exc e, tr') => (Exc e, tr')
    end.

Notation "x <- m ;; k" := (bind m (fun x => k))
  (at level 61, m at next level, right associativity).

Definition throw {A} (msg : string) : M A := fun tr => (Exc msg, tr).

Definition lift {A} (o : outcome A) : M A := fun tr => (o, tr).

Definition emit (e : event) : M unit := fun tr => (Ok tt, (tr ++ [e])%list).

(** [try { m } catch (e) { h(e.message) }] *)
Definition try_catch {A} (m : M A) (h : string -> M A) : M A :=
  fun tr =>
    match m tr with
    | (Exc e, tr') => h e tr'
    | r => r
    end.

(** [try { m } finally { fin }]: a throwing [fin] replaces the completion
    of [m]; otherwise the completion of [m] (value or exception) stands. *)
Definition try_finally {A} (m : M A) (fin : M unit) : M A :=
  fun tr =>
    let (o, tr1) := m tr in
    let (o2, tr2) := fin tr1 in
    match o2 with
    | Exc e => (Exc e, tr2)
    | Ok _ => (o, tr2)
    end.

(** A branch of the type dispatch either returns a response early or leaves
    [data] for the final [res.status(200).json(data)]. *)
Inductive flow : Type :=
| Return (r : response)
| Continue (data : list jsval).

(** ** The environment of a request

    The storage layer, the [pg] pool, [parseCSV], [fetch] and
    [extractRESTData] are outside the executor; a request runs against one
    fixed behaviour of each.  A query answers rows or rejects with a message;
    [pool.end()] resolves or rejects; [fetch] answers a response or rejects
    (network failure); [response.json()] answers a value or rejects. *)
Record env := mkEnv {
  getDataset : Z -> option dataset;
  getConnection : jsval -> option connection;
  pool_query : jsval -> string -> list jsval -> outcome (list jsval);
  pool_end : jsval -> outcome unit;
  parseCSV : jsval -> csv_options -> outcome (list jsval);
  fetch : jsval -> fetch_options -> outcome fetch_response;
  response_json : fetch_response -> outcome jsval;
  extractRESTData : jsval -> option jsval -> list jsval
}.

(** Modelled from the spec: [buildPgConnectionString], whose body is not
    present in src/server/routes.processed.ts (only its callers are).  The
    spec: "synthesize one from discrete host/port/database/user fields";
    the callers' message: "Database and user/username are required".  It
    yields [null] unless [database] and one of [user]/[username] are set. *)
Definition buildPgConnectionString (config : jsval) : option string :=
  let c := Some config in
  let user := js_or (jget c "user") (jget c "username") in
  let password := jget c "password" in
  let host := js_or (jget c "host") (Some (JStr "localhost")) in
  let port := js_or (jget c "port") (Some (JNum 5432)) in
  if truthy (jget c "database") && truthy user then
    Some ("postgresql://" ++ tmpl user
          ++ (if truthy password then ":" ++ tmpl password else "")
          ++ "@" ++ tmpl host ++ ":" ++ tmpl port ++ "/" ++ tmpl (jget c "database"))
  else None.

Definition incomplete_msg : string :=
  "Connection configuration is incomplete. Database and user/username are required.".

Definition R (s : Z) (m : string) : response := mkResponse s (msg_body m).

Definition dquote : string := String (ascii_of_nat 34) "".

(** [v || d] where the default [d] is defined. *)
Definition js_or_default (v : option jsval) (d : jsval) : jsval :=
  match js_or v (Some d) with Some x => x | None => d end.

(** [v === false] *)
Definition is_false (v : option jsval) : bool :=
  match v with Some (JBool false) => true | _ => false end.

(** [v === s] for a string literal [s]. *)
Definition is_str (v : option jsval) (s : string) : bool :=
  match v with Some (JStr s') => String.eqb s' s | _ => false end.

(** [typeof v === 'object'] *)
Definition is_object (v : jsval) : bool :=
  match v with JNull | JArr _ | JObj _ => true | _ => false end.

(** The query selection of the data route (sql branch). *)
Definition select_sql_query (dataset : dataset) (customQuery : option jsval) : string :=
  let q0 := "SELECT * FROM users LIMIT 100" in
  let cfg := ds_config dataset in
  let from_config :=
    if truthy (Some cfg) && is_object cfg then
      let table := jget (Some cfg) "table" in
      if truthy table then "SELECT * FROM " ++ tmpl table ++ " LIMIT 100" else q0
    else q0 in
  let q1 :=
    match ds_query dataset with
    | Some q => if String.eqb q "" then from_config else q
    | None => from_config
    end in
  match customQuery with
  | Some (JStr s) => if String.eqb s "" then q1 else s
  | _ => q1
  end.

(** The statement of the dataset-query handler: the dataset's query wrapped
    as the CTE [dataset_<id>] in front of the request's query. *)
Definition cte_query (dataset : dataset) (query : string) : string :=
  match ds_query dataset with
  | Some q =>
      if String.eqb q "" then query
      else "WITH dataset_" ++ z_to_string (ds_id dataset) ++ " AS (" ++ q ++ ") " ++ query
  | None => query
  end.

Definition tables_query : string :=
  "SELECT table_name FROM information_schema.tables WHERE table_schema = 'public' AND table_type = 'BASE TABLE' ORDER BY table_name".

Definition schema_query : string :=
  "SELECT column_name as name, data_type as type FROM information_schema.columns WHERE table_name = $1 ORDER BY ordinal_position".

(** [row.table_name], serialised by [res.json] ([undefined] in an array
    becomes [null]). *)
Definition table_name_of (row : jsval) : jsval :=
  match jget (Some row) "table_name" with Some v => v | None => JNull end.

Section Handlers.

Variable E : env.

(** [let connectionString = ''; if (config.connectionString) {...} else
    { const connStr = buildPgConnectionString(config); if (!connStr) return
    400; ... }]; [None] is the early 400 return. *)
Definition resolve_connection_string (config : jsval) : M (option jsval) :=
  let cs := jget (Some config) "connectionString" in
  if truthy cs then ret cs
  else
    _ <- emit (EvBuildPgConnectionString config);;
    let connStr := option_map JStr (buildPgConnectionString config) in
    ret (if truthy connStr then connStr else None).

(** [const tempPool = new Pool({ connectionString }); try { body }
    finally { await tempPool.end(); }] *)
Definition with_pool {A} (connectionString : jsval) (body : M A) : M A :=
  _ <- emit (EvPoolNew connectionString);;
  try_finally body (_ <- emit EvPoolEnd;; lift (pool_end E connectionString)).

(** [await tempPool.query(sql, params)] returning [result.rows]. *)
Definition query_rows (connectionString : jsval) (sql : string) (params : list jsval)
  : M (list jsval) :=
  _ <- emit (EvPoolQuery sql params);;
  lift (pool_query E connectionString sql params).

(** The block repeated verbatim in the four SQL routes: check the config,
    resolve the connection string, open the temporary pool and run [k] on
    it.  [inj] turns an early response into the route's result type. *)
Definition with_connection_pool {A} (inj : response -> A) (config : jsval)
  (k : jsval -> M A) : M A :=
  if negb (truthy (Some config)) then ret (inj (R 400 "Connection configuration is missing"))
  else
    cs <- resolve_connection_string config;;
    match cs with
    | None => ret (inj (R 400 incomplete_msg))
    | Some connectionString => with_pool connectionString (k connectionString)
    end.

(** *** GET /datasets/:id/data *)

Definition csv_branch (connection : connection) : M flow :=
  let config := conn_config connection in
  let c := Some config in
  let csvContent := js_or (jget c "csvData") (jget c "fileContent") in
  match csvContent with
  | Some content =>
      if truthy c && truthy csvContent then
        let opts := mkCsvOptions
                      (js_or_default (jget c "delimiter") (JStr ","))
                      (negb (is_false (jget c "hasHeaders")))
                      (js_or_default (jget c "quoteChar") (JStr dquote))
                      (negb (is_false (jget c "trimFields"))) in
        _ <- emit (EvParseCSV content opts);;
        data <- lift (parseCSV E content opts);;
        ret (Continue data)
      else ret (Return (R 400 "No CSV data found in connection"))
  | None => ret (Return (R 400 "No CSV data found in connection"))
  end.

(** The headers after the [config.auth] block. *)
Definition auth_headers (auth headers : option jsval) : option jsval :=
  if truthy auth then
    if is_str (jget auth "type") "basic" then
      let credentials :=
        base64 (tmpl (jget auth "username") ++ ":" ++ tmpl (jget auth "password")) in
      Some (JObj (assoc_set "Authorization" (JStr ("Basic " ++ credentials))
                    (spread_fields headers)))
    else if is_str (jget auth "type") "bearer" && truthy (jget auth "token") then
      Some (JObj (assoc_set "Authorization" (JStr ("Bearer " ++ tmpl (jget auth "token")))
                    (spread_fields headers)))
    else headers
  else headers.

Definition is_mutating (method : jsval) : bool :=
  match method with
  | JStr m => String.eqb m "POST" || String.eqb m "PUT" || String.eqb m "PATCH"
  | _ => false
  end.

(** The [RequestInit] built from a REST connection's config. *)
Definition rest_fetch_options (config : jsval) : fetch_options :=
  let c := Some config in
  let headers0 := if truthy (jget c "headers") then jget c "headers" else None in
  let headers1 := auth_headers (jget c "auth") headers0 in
  let method := js_or_default (jget c "method") (JStr "GET") in
  if is_mutating method && truthy (jget c "body") then
    mkFetchOptions
      (Some (JObj (assoc_set "Content-Type" (JStr "application/json")
                     (spread_fields headers1))))
      method (jget c "body")
  else mkFetchOptions headers1 method None.

Definition rest_branch (connection : connection) : M flow :=
  try_catch
    (let config := conn_config connection in
     let c := Some config in
     match jget c "url" with
     | Some url =>
         if truthy c && truthy (Some url) then
           let fetchOptions := rest_fetch_options config in
           _ <- emit (EvFetch url fetchOptions);;
           response <- lift (fetch E url fetchOptions);;
           if negb (resp_ok response) then
             throw ("API returned " ++ z_to_string (resp_status response) ++ ": "
                    ++ resp_statusText response)
           else
             jsonResponse <- lift (response_json E response);;
             ret (Continue (extractRESTData E jsonResponse (jget c "resultPath")))
         else ret (Return (R 400 "REST connection URL is missing"))
     | None => ret (Return (R 400 "REST connection URL is missing"))
     end)
    (fun msg => ret (Return (mkResponse 400 (err_body "REST API request failed" msg)))).

Definition sql_branch (dataset : dataset) (connection : connection)
  (customQuery : option jsval) : M flow :=
  try_catch
    (with_connection_pool Return (conn_config connection)
       (fun connectionString =>
          let sqlQuery := select_sql_query dataset customQuery in
          rows <- query_rows connectionString sqlQuery [];;
          ret (Continue rows)))
    (fun msg => ret (Return (mkResponse 400 (err_body "SQL query execution failed" msg)))).

Definition get_dataset_data (id : Z) (customQuery : option jsval) : M response :=
  try_catch
    (_ <- emit (EvGetDataset id);;
     match getDataset E id with
     | None => ret (R 404 "Dataset not found")
     | Some dataset =>
         match ds_connectionId dataset with
         | None => ret (R 400 "Dataset has no associated connection")
         | Some cid =>
             _ <- emit (EvGetConnection (JNum cid));;
             match getConnection E (JNum cid) with
             | None => ret (R 404 "Connection not found")
             | Some connection =>
                 fl <- (if String.eqb (conn_type connection) "csv" then csv_branch connection
                        else if String.eqb (conn_type connection) "rest" then rest_branch connection
                        else if String.eqb (conn_type connection) "sql" then
                          sql_branch dataset connection customQuery
                        else ret (Continue []));;
                 match fl with
                 | Return r => ret r
                 | Continue data => ret (mkResponse 200 (JArr data))
                 end
             end
         end
     end)
    (fun _ => ret (R 500 "Internal server error")).

(** *** Dataset-query handler (the fragment at lines 25-63)

    Only the tail of this handler survives in routes.processed.ts: from the
    resolved [connectionString] on.  [query] is the request's query, which
    the lost prefix has already checked to be a string. *)
Definition execute_dataset_query_pool (dataset : dataset) (connectionString : jsval)
  (query : string) : M response :=
  try_catch
    (try_catch
       (with_pool connectionString
          (let sqlQuery := cte_query dataset query in
           rows <- query_rows connectionString sqlQuery [];;
           ret (mkResponse 200 (JArr rows))))
       (fun msg => ret (mkResponse 400 (err_body "SQL query execution failed" msg))))
    (fun _ => ret (R 500 "Internal server error")).

(** *** POST /connections/execute-query *)

Definition execute_query (connectionId query : option jsval) : M response :=
  try_catch
    (if negb (truthy connectionId) then ret (R 400 "Connection ID is required")
     else
       match connectionId, query with
       | Some cid, Some (JStr q) =>
           if String.eqb q "" then ret (R 400 "Valid SQL query is required")
           else
             _ <- emit (EvGetConnection cid);;
             match getConnection E cid with
             | None => ret (R 404 "Connection not found")
             | Some connection =>
                 if negb (String.eqb (conn_type connection) "sql") then
                   ret (R 400 "Connection must be of type 'sql'")
                 else
                   try_catch
                     (with_connection_pool (fun r => r) (conn_config connection)
                        (fun connectionString =>
                           rows <- query_rows connectionString q [];;
                           ret (mkResponse 200 (JArr rows))))
                     (fun msg => ret (mkResponse 400 (err_body "SQL query execution failed" msg)))
             end
       | _, _ => ret (R 400 "Valid SQL query is required")
       end)
    (fun _ => ret (R 500 "Internal server error")).

(** [error.message || "Internal server error"] *)
Definition internal_error (msg : string) : response :=
  R 500 (if String.eqb msg "" then "Internal server error" else msg).

(** *** GET /connections/:id/tables *)

Definition get_tables (id : Z) : M response :=
  try_catch
    (_ <- emit (EvGetConnection (JNum id));;
     match getConnection E (JNum id) with
     | None => ret (R 404 "Connection not found")
     | Some connection =>
         if negb (String.eqb (conn_type connection) "sql") then
           ret (R 400 "Connection must be of type 'sql'")
         else
           try_catch
             (with_connection_pool (fun r => r) (conn_config connection)
                (fun connectionString =>
                   rows <- query_rows connectionString tables_query [];;
                   ret (mkResponse 200 (JArr (map table_name_of rows)))))
             (fun msg => ret (mkResponse 400 (err_body "Failed to retrieve database tables" msg)))
     end)
    (fun msg => ret (internal_error msg)).

(** *** POST /connections/table-schema *)

Definition get_table_schema (connectionId table : option jsval) : M response :=
  try_catch
    (if negb (truthy connectionId) then ret (R 400 "Connection ID is required")
     else
       match connectionId, table with
       | Some cid, Some (JStr t) =>
           if String.eqb t "" then ret (R 400 "Table name is required")
           else
             _ <- emit (EvGetConnection cid);;
             match getConnection E cid with
             | None => ret (R 404 "Connection not found")
             | Some connection =>
                 if negb (String.eqb (conn_type connection) "sql") then
                   ret (R 400 "Connection must be of type 'sql'")
                 else
                   try_catch
                     (with_connection_pool (fun r => r) (conn_config connection)
                        (fun connectionString =>
                           rows <- query_rows connectionString schema_query [JStr t];;
                           ret (mkResponse 200 (JArr rows))))
                     (fun msg => ret (mkResponse 400 (err_body "Failed to retrieve table schema" msg)))
             end
       | _, _ => ret (R 400 "Table name is required")
       end)
    (fun msg => ret (internal_error msg)).

End Handlers.

(** ** Trace properties *)

(** After [new Pool], only queries until the single [end()], which is the
    last effect of the handler. *)
Fixpoint after_new (tr : list event) : bool :=
  match tr with
  | [EvPoolEnd] => true
  | EvPoolQuery _ _ :: r => after_new r
  | _ => false
  end.

Fixpoint closed_once_b (tr : list event) : bool :=
  match tr with
  | [] => true
  | EvPoolNew _ :: r => after_new r
  | e :: r => negb (is_pool_event e) && closed_once_b r
  end.

(** Either no pool is touched, or exactly one pool is created, used only for
    queries, and closed exactly once as the last effect. *)
Definition closed_once (tr : list event) : Prop :=
  Forall (fun e => is_pool_event e = false) tr \/
  exists pre cs qs,
    tr = (pre ++ EvPoolNew cs :: qs ++ [EvPoolEnd])%list
    /\ Forall (fun e => is_pool_event e = false) pre
    /\ Forall (fun e => is_query_event e = true) qs.

Definition count_ends (tr : list event) : nat :=
  length (filter (fun e => match e with EvPoolEnd => true | _ => false end) tr).

Definition pool_opened (tr : list event) : Prop := exists cs, In (EvPoolNew cs) tr.

Definition pool_closed_once (tr : list event) : Prop :=
  closed_once tr /\ (pool_opened tr -> count_ends tr = 1%nat).

(** The request-level override of the data route: [customQuery] when it is
    a non-empty string. *)
Definition override_query (customQuery : option jsval) : option string :=
  match customQuery with
  | Some (JStr s) => if String.eqb s "" then None else Some s
  | _ => None
  end.

(** The dataset's stored query when it is non-empty ([if (dataset.query)]). *)
Definition stored_query (d : dataset) : option string :=
  match ds_query d with
  | Some q => if String.eqb q "" then None else Some q
  | None => None
  end.

(** A fixed environment for concrete runs: one dataset and one connection
    for every id, queries answer their own text, the upstream answers 500. *)
Definition fixture_env (d : dataset) (c : connection) : env :=
  mkEnv (fun _ => Some d) (fun _ => Some c)
        (fun _ q _ => Ok [JStr q]) (fun _ => Ok tt)
        (fun _ _ => Ok []) (fun _ _ => Ok (mkFetchResponse 500 "Internal Server Error"))
        (fun _ => Ok JNull) (fun _ _ => []).

(** The SQL statements a trace executes, in order. *)
Definition executed_queries (tr : list event) : list string :=
  flat_map (fun e => match e with EvPoolQuery q _ => [q] | _ => [] end) tr.

(** The options [parseCSV] receives for a CSV connection's config. *)
Definition csv_options_of (config : jsval) : csv_options :=
  let c := Some config in
  mkCsvOptions (js_or_default (jget c "delimiter") (JStr ","))
               (negb (is_false (jget c "hasHeaders")))
               (js_or_default (jget c "quoteChar") (JStr dquote))
               (negb (is_false (jget c "trimFields"))).

(** Concrete records used by the witnesses below. *)
Definition cte_dataset : dataset := mkDataset 5 (Some 1%Z) (Some "SELECT a FROM t") JNull.
Definition table_dataset : dataset :=
  mkDataset 7 (Some 1%Z) None (JObj [("table", JStr "sales")]).
Definition orphan_dataset : dataset := mkDataset 9 None None JNull.
Definition pg_connection : connection :=
  mkConnection 1 "sql" (JObj [("connectionString", JStr "postgres://db")]).
Definition partial_pg_connection : connection :=
  mkConnection 2 "sql" (JObj [("host", JStr "db"); ("user", JStr "app")]).
Definition rest_connection : connection :=
  mkConnection 3 "rest"
    (JObj [("url", JStr "https://api.example.com/items");
           ("auth", JObj [("type", JStr "basic"); ("username", JStr "Aladdin");
                          ("password", JStr "open sesame")])]).
Definition csv_connection : connection :=
  mkConnection 4 "csv" (JObj [("csvData", JStr "a,b"); ("delimiter", JStr ";")]).
Definition empty_csv_connection : connection :=
  mkConnection 5 "csv" (JObj [("delimiter", JStr ";")]).
Definition other_connection : connection := mkConnection 6 "mongodb" JNull.
Definition bearer_connection : connection :=
  mkConnection 8 "rest"
    (JObj [("url", JStr "https://api.example.com/items"); ("method", JStr "POST");
           ("body", JObj [("q", JNum 1)]);
           ("headers", JObj [("Accept", JStr "application/json")]);
           ("auth", JObj [("type", JStr "bearer"); ("token", JStr "t0k")])]).

(** An environment with the database driver replaced. *)
Definition with_db (E : env) (pq : jsval -> string -> list jsval -> outcome (list jsval))
  (pe : jsval -> outcome unit) : env :=
  mkEnv (getDataset E) (getConnection E) pq pe (parseCSV E) (fetch E)
        (response_json E) (extractRESTData E).

(** An environment with [fetch] and [response.json()] replaced. *)
Definition with_http (E : env) (f : jsval -> fetch_options -> outcome fetch_response)
  (j : fetch_response -> outcome jsval) : env :=
  mkEnv (getDataset E) (getConnection E) (pool_query E) (pool_end E) (parseCSV E) f j
        (extractRESTData E).

(** An environment whose CSV parser throws. *)
Definition with_csv (E : env) (p : jsval -> csv_options -> outcome (list jsval)) : env :=
  mkEnv (getDataset E) (getConnection E) (pool_query E) (pool_end E) p (fetch E)
        (response_json E) (extractRESTData E).

(** A request parameter checked with [!v || typeof v !== 'string']: the
    string when it is a non-empty string. *)
Definition string_param (v : option jsval) : option string :=
  match v with
  | Some (JStr s) => if String.eqb s "" then None else Some s
  | _ => None
  end.

(** The SQL statements of a trace with their parameters. *)
Definition executed_statements (tr : list event) : list (string * list jsval) :=
  flat_map (fun e => match e with EvPoolQuery q ps => [(q, ps)] | _ => [] end) tr.

(** ** Dashboard-widget routes (routes.processed.ts, lines 421-503)

    The storage calls are recorded in order; a rejected storage call lands
    in the route's [catch] and answers 500. *)
Module DashboardWidgets.

Record store := mkStore {
  getDashboard : Z -> option jsval;
  getWidget : Z -> option jsval;
  addWidgetToDashboard : Z -> Z -> jsval -> outcome jsval;
  removeWidgetFromDashboard : Z -> Z -> outcome bool;
  updateWidgetPosition : Z -> Z -> jsval -> outcome jsval
}.

Inductive call : Type :=
| CGetDashboard (dashboardId : Z)
| CGetWidget (widgetId : Z)
| CAddWidget (dashboardId widgetId : Z) (position : jsval)
| CRemoveWidget (dashboardId widgetId : Z)
| CUpdatePosition (dashboardId widgetId : Z) (position : jsval).

Definition is_write (c : call) : bool :=
  match c with
  | CAddWidget _ _ _ | CRemoveWidget _ _ | CUpdatePosition _ _ _ => true
  | _ => false
  end.

Definition internal : response := R 500 "Internal server error".

(** The lookups shared by the three routes: dashboard first, then widget;
    [inl] is an early 404. *)
Definition lookup_both (S : store) (dashboardId widgetId : Z)
  : (response + unit) * list call :=
  match getDashboard S dashboardId with
  | None => (inl (R 404 "Dashboard not found"), [CGetDashboard dashboardId])
  | Some _ =>
      match getWidget S widgetId with
      | None => (inl (R 404 "Widget not found"),
                 [CGetDashboard dashboardId; CGetWidget widgetId])
      | Some _ => (inr tt, [CGetDashboard dashboardId; CGetWidget widgetId])
      end
  end.

(** POST /dashboards/:dashboardId/widgets/:widgetId; [position] is
    [req.body.position]. *)
Definition add_widget_to_dashboard (S : store) (dashboardId widgetId : Z)
  (position : option jsval) : response * list call :=
  match lookup_both S dashboardId widgetId with
  | (inl r, calls) => (r, calls)
  | (inr _, calls) =>
      let pos := js_or_default position (JObj []) in
      let calls := (calls ++ [CAddWidget dashboardId widgetId pos])%list in
      match addWidgetToDashboard S dashboardId widgetId pos with
      | Ok dashboardWidget => (mkResponse 201 dashboardWidget, calls)
      | Exc _ => (internal, calls)
      end
  end.

(** DELETE /dashboards/:dashboardId/widgets/:widgetId; [res.status(204).send()]
    is a 204 with an empty body ([JNull]). *)
Definition remove_widget_from_dashboard (S : store) (dashboardId widgetId : Z)
  : response * list call :=
  match lookup_both S dashboardId widgetId with
  | (inl r, calls) => (r, calls)
  | (inr _, calls) =>
      let calls := (calls ++ [CRemoveWidget dashboardId widgetId])%list in
      match removeWidgetFromDashboard S dashboardId widgetId with
      | Ok true => (mkResponse 204 JNull, calls)
      | Ok false => (R 404 "Widget is not in the specified dashboard", calls)
      | Exc _ => (internal, calls)
      end
  end.

(** PATCH /dashboards/:dashboardId/widgets/:widgetId/position *)
Definition update_widget_position (S : store) (dashboardId widgetId : Z)
  (position : option jsval) : response * list call :=
  match lookup_both S dashboardId widgetId with
  | (inl r, calls) => (r, calls)
  | (inr _, calls) =>
      match position with
      | Some pos =>
          if truthy position then
            let calls := (calls ++ [CUpdatePosition dashboardId widgetId pos])%list in
            match updateWidgetPosition S dashboardId widgetId pos with
            | Ok updated => (mkResponse 200 updated, calls)
            | Exc _ => (internal, calls)
            end
          else (R 400 "Position data is required", calls)
      | None => (R 400 "Position data is required", calls)
      end
  end.

End DashboardWidgets.

(** A storage holding dashboard 1 and widget 2. *)
Definition widget_store : DashboardWidgets.store :=
  DashboardWidgets.mkStore
    (fun d => if Z.eqb d 1 then Some (JObj [("id", JNum 1)]) else None)
    (fun w => if Z.eqb w 2 then Some (JObj [("id", JNum 2)]) else None)
    (fun d w p => Ok (JObj [("dashboardId", JNum d); ("widgetId", JNum w); ("position", p)]))
    (fun _ _ => Ok false)
    (fun d w p => Ok (JObj [("dashboardId", JNum d); ("widgetId", JNum w); ("position", p)])).

(** ** Proof automation *)

Arguments select_sql_query : simpl never.
Arguments cte_query : simpl never.
Arguments rest_fetch_options : simpl never.
Arguments resp_ok : simpl never.
Arguments z_to_string : simpl never.
Arguments base64 : simpl never.


Ltac unfold_handler :=
  cbv [get_dataset_data execute_query get_tables get_table_schema
       execute_dataset_query_pool csv_branch rest_branch sql_branch
       with_connection_pool with_pool query_rows resolve_connection_string
       try_catch try_finally bind ret emit lift throw].

(** Case analysis on the innermost pending [match] first, so that the
    oracle answers are split before the control flow that consumes them. *)
Ltac split_all :=
  repeat (simpl in *;
    match goal with
    | |- context [match ?x with _ => _ end] =>
        lazymatch x with
        | context [match _ with _ => _ end] => fail
        | _ => destruct x eqn:?
        end
    end).

(** ** Base64 against RFC 4648 vectors *)

Example base64_rfc : base64 "Aladdin:open sesame" = "QWxhZGRpbjpvcGVuIHNlc2FtZQ==".
Proof. vm_compute. reflexivity. Qed.

Example base64_pad1 : base64 "ab" = "YWI=".
Proof. vm_compute. reflexivity. Qed.

(** ** Trace lemmas *)

Lemma after_new_spec tr : after_new tr = true ->
  exists qs, tr = (qs ++ [EvPoolEnd])%list /\ Forall (fun e => is_query_event e = true) qs.
Proof.
  induction tr as [|e r IH]; simpl; [discriminate|].
  destruct e; try discriminate.
  - intros H. destruct (IH H) as [qs [-> Hq]]. exists (EvPoolQuery sql params :: qs). auto.
  - destruct r; [|discriminate]. intros _. exists []. auto.
Qed.

Lemma closed_once_b_spec tr : closed_once_b tr = true -> closed_once tr.
Proof.
  induction tr as [|e r IH]; intros H; [left; constructor|].
  destruct e eqn:He; simpl in H;
    try discriminate;
    try (destruct (IH H) as [Hf | (pre & cs & qs & -> & Hp & Hq)];
         [left; constructor; auto
         | right; exists (e :: pre), cs, qs; subst e; simpl; auto]).
  right. destruct (after_new_spec r H) as [qs [-> Hq]].
  exists [], connectionString, qs. auto.
Qed.

Lemma count_ends_free tr :
  Forall (fun e => is_pool_event e = false) tr -> count_ends tr = 0%nat.
Proof.
  unfold count_ends. induction 1 as [|e r He _ IH]; [reflexivity|].
  destruct e; simpl in *; try discriminate; exact IH.
Qed.

Lemma count_ends_queries qs :
  Forall (fun e => is_query_event e = true) qs -> count_ends qs = 0%nat.
Proof.
  unfold count_ends. induction 1 as [|e r He _ IH]; [reflexivity|].
  destruct e; simpl in *; try discriminate; exact IH.
Qed.

Lemma count_ends_app a b : count_ends (a ++ b) = (count_ends a + count_ends b)%nat.
Proof. unfold count_ends. rewrite filter_app, length_app. reflexivity. Qed.

Lemma closed_once_count tr : closed_once tr -> pool_closed_once tr.
Proof.
  intros H. split; [exact H|]. intros [cs Hin].
  destruct H as [Hf | (pre & cs' & qs & -> & Hp & Hq)].
  - rewrite Forall_forall in Hf. specialize (Hf _ Hin). discriminate.
  - rewrite count_ends_app.
    change (count_ends (EvPoolNew cs' :: qs ++ [EvPoolEnd]))
      with (count_ends (qs ++ [EvPoolEnd])).
    rewrite count_ends_app, count_ends_free, count_ends_queries by assumption.
    reflexivity.
Qed.

Lemma closed_once_b_pool tr : closed_once_b tr = true -> pool_closed_once tr.
Proof. intros H. apply closed_once_count, closed_once_b_spec, H. Qed.

Lemma data_route_pool E id cq : closed_once_b (snd (get_dataset_data E id cq [])) = true.
Proof. unfold_handler. split_all; reflexivity. Qed.

Lemma execute_query_pool E cid q : closed_once_b (snd (execute_query E cid q [])) = true.
Proof. unfold_handler. split_all; reflexivity. Qed.

Lemma tables_pool E id : closed_once_b (snd (get_tables E id [])) = true.
Proof. unfold_handler. split_all; reflexivity. Qed.

Lemma table_schema_pool E cid t : closed_once_b (snd (get_table_schema E cid t [])) = true.
Proof. unfold_handler. split_all; reflexivity. Qed.

(** ** Claims *)

(** C2: in each of the four SQL routes (data fetch, custom query, table
    listing, table schema), whatever the pool's query and [end()] answer
    (rows, SQL error, rejection), at most one ephemeral pool is created, and
    if one is, it is closed exactly once, after its queries, as the last
    effect of the handler. *)
Theorem sql_pool_closed_once (E : env) :
  (forall id cq, pool_closed_once (snd (get_dataset_data E id cq []))) /\
  (forall cid q, pool_closed_once (snd (execute_query E cid q []))) /\
  (forall id, pool_closed_once (snd (get_tables E id []))) /\
  (forall cid t, pool_closed_once (snd (get_table_schema E cid t []))).
Proof.
  repeat split; intros; apply closed_once_b_pool;
    auto using data_route_pool, execute_query_pool, tables_pool, table_schema_pool.
Qed.

(** C10: a dataset whose [connectionId] is null gets a 400 with message
    "Dataset has no associated connection"; the only effect before it is the
    dataset lookup (no connection lookup, no pool). *)
Theorem null_connection_id_400 (E : env) (id : Z) (cq : option jsval) (d : dataset) :
  getDataset E id = Some d ->
  ds_connectionId d = None ->
  get_dataset_data E id cq [] =
    (Ok (R 400 "Dataset has no associated connection"), [EvGetDataset id]).
Proof. intros Hd Hc. unfold_handler. rewrite Hd, Hc. reflexivity. Qed.

(** C9: a connection whose type is none of csv, rest, sql yields status 200
    with an empty rows array. *)
Theorem other_type_empty_rows (E : env) (id : Z) (cq : option jsval)
  (d : dataset) (cid : Z) (c : connection) :
  getDataset E id = Some d ->
  ds_connectionId d = Some cid ->
  getConnection E (JNum cid) = Some c ->
  conn_type c <> "csv" -> conn_type c <> "rest" -> conn_type c <> "sql" ->
  fst (get_dataset_data E id cq []) = Ok (mkResponse 200 (JArr [])).
Proof.
  intros Hd Hc Hg Hcsv Hrest Hsql. unfold_handler. rewrite Hd, Hc, Hg.
  apply String.eqb_neq in Hcsv, Hrest, Hsql. rewrite Hcsv, Hrest, Hsql.
  reflexivity.
Qed.

(** C3: a sql connection whose config has no (truthy) [connectionString]
    and lacks [database] or both [user] and [username] gets a 400
    configuration error from the data route, and no pool is ever opened. *)
Theorem sql_unresolvable_config_400 (E : env) (id : Z) (cq : option jsval)
  (d : dataset) (cid : Z) (c : connection) :
  getDataset E id = Some d ->
  ds_connectionId d = Some cid ->
  getConnection E (JNum cid) = Some c ->
  conn_type c = "sql" ->
  truthy (jget (Some (conn_config c)) "connectionString") = false ->
  (truthy (jget (Some (conn_config c)) "database") = false \/
   truthy (js_or (jget (Some (conn_config c)) "user")
                 (jget (Some (conn_config c)) "username")) = false) ->
  fst (get_dataset_data E id cq []) =
    Ok (R 400 (if truthy (Some (conn_config c)) then incomplete_msg
               else "Connection configuration is missing"))
  /\ Forall (fun e => is_pool_event e = false) (snd (get_dataset_data E id cq [])).
Proof.
  intros Hd Hc Hg Ht Hcs Hfields.
  assert (Hb : buildPgConnectionString (conn_config c) = None).
  { unfold buildPgConnectionString.
    destruct Hfields as [Hf | Hf]; rewrite Hf; [|rewrite andb_false_r]; reflexivity. }
  unfold_handler. rewrite Hd, Hc, Hg, Ht, Hcs, Hb.
  destruct (truthy (Some (conn_config c))); simpl; split; auto.
Qed.

(** A trace in which no connection string is synthesised and every pool is
    created with the config's [connectionString] as it is. *)
Definition uses_connection_string (config : jsval) (tr : list event) : Prop :=
  (forall cfg, ~ In (EvBuildPgConnectionString cfg) tr) /\
  (forall cs, In (EvPoolNew cs) tr -> jget (Some config) "connectionString" = Some cs).

Ltac verbatim_leaf :=
  unfold uses_connection_string; split; intros; simpl in *;
  intuition congruence.

(** C5: for a sql connection whose config has a (truthy) [connectionString],
    the data route, the custom-query route, the table listing and the table
    schema route never call [buildPgConnectionString], and open their pool
    with that string verbatim. *)
Theorem connection_string_verbatim (E : env) (c : connection) :
  conn_type c = "sql" ->
  truthy (jget (Some (conn_config c)) "connectionString") = true ->
  (forall id cq d cid,
     getDataset E id = Some d -> ds_connectionId d = Some cid ->
     getConnection E (JNum cid) = Some c ->
     uses_connection_string (conn_config c) (snd (get_dataset_data E id cq []))) /\
  (forall cid q, getConnection E cid = Some c ->
     uses_connection_string (conn_config c) (snd (execute_query E (Some cid) q []))) /\
  (forall id, getConnection E (JNum id) = Some c ->
     uses_connection_string (conn_config c) (snd (get_tables E id []))) /\
  (forall cid t, getConnection E cid = Some c ->
     uses_connection_string (conn_config c) (snd (get_table_schema E (Some cid) t []))).
Proof.
  intros Ht Hcs.
  split; [|split; [|split]].
  - intros id cq d cid Hd Hc Hg. unfold_handler.
    rewrite Hd, Hc, Hg, Ht, Hcs. split_all; verbatim_leaf.
  - intros cid q Hg. unfold_handler.
    rewrite Hg, Ht, Hcs. split_all; verbatim_leaf.
  - intros id Hg. unfold_handler.
    rewrite Hg, Ht, Hcs. split_all; verbatim_leaf.
  - intros cid t Hg. unfold_handler.
    rewrite Hg, Ht, Hcs. split_all; verbatim_leaf.
Qed.

(** ** Lemmas on the query selection and the request options *)

Lemma select_override d cq s :
  override_query cq = Some s -> select_sql_query d cq = s.
Proof.
  unfold override_query, select_sql_query.
  destruct cq as [[]|]; try discriminate.
  destruct (String.eqb s0 ""); congruence.
Qed.

Lemma select_stored d cq q :
  override_query cq = None -> stored_query d = Some q -> select_sql_query d cq = q.
Proof.
  unfold override_query, stored_query, select_sql_query. intros Ho Hs.
  destruct (ds_query d) as [q'|]; [|discriminate].
  destruct (String.eqb q' "") eqn:Hq; [discriminate|]. injection Hs as <-.
  destruct cq as [[]|]; try reflexivity.
  destruct (String.eqb s ""); [reflexivity | discriminate].
Qed.

Lemma select_table d cq t :
  override_query cq = None -> stored_query d = None ->
  jget (Some (ds_config d)) "table" = Some t -> truthy (Some t) = true ->
  select_sql_query d cq = "SELECT * FROM " ++ js_to_string t ++ " LIMIT 100".
Proof.
  unfold override_query, stored_query, select_sql_query. intros Ho Hs Ht Htr.
  destruct (ds_config d) as [| | | | | fields]; try discriminate. simpl in Ht.
  replace (jget (Some (JObj fields)) "table") with (Some t) by (symmetry; exact Ht).
  rewrite Htr. simpl.
  destruct (ds_query d) as [q|];
    [destruct (String.eqb q "") eqn:Eq; [|discriminate]|];
    destruct cq as [[]|]; simpl; try reflexivity;
    destruct (String.eqb s ""); try reflexivity; discriminate.
Qed.

Lemma assoc_get_set_same k v l : assoc_get k (assoc_set k v l) = Some v.
Proof.
  induction l as [|[k' v'] r IH]; simpl; [rewrite String.eqb_refl; reflexivity|].
  destruct (String.eqb k k') eqn:E; simpl; [rewrite String.eqb_refl; reflexivity|].
  rewrite E. exact IH.
Qed.

Lemma assoc_get_set_other k k' v l :
  String.eqb k k' = false -> assoc_get k (assoc_set k' v l) = assoc_get k l.
Proof.
  intros Hk. induction l as [|[k'' v''] r IH]; simpl; [rewrite Hk; reflexivity|].
  destruct (String.eqb k' k'') eqn:E; simpl.
  - apply String.eqb_eq in E. subst k''. rewrite Hk. reflexivity.
  - rewrite IH. reflexivity.
Qed.

Lemma rest_options_basic config auth :
  jget (Some config) "auth" = Some auth ->
  is_str (jget (Some auth) "type") "basic" = true ->
  jget (fo_headers (rest_fetch_options config)) "Authorization" =
    Some (JStr ("Basic " ++ base64 (tmpl (jget (Some auth) "username") ++ ":"
                                    ++ tmpl (jget (Some auth) "password")))).
Proof.
  intros Ha Hb. unfold rest_fetch_options, auth_headers. rewrite Ha, Hb.
  destruct auth as [| | | | | fields]; try discriminate. simpl.
  destruct (is_mutating _ && truthy _); simpl.
  - rewrite assoc_get_set_other by reflexivity. apply assoc_get_set_same.
  - apply assoc_get_set_same.
Qed.

(** ** The effects of the data route, branch by branch *)

Section DataRoute.

Variables (E : env) (id : Z) (cq : option jsval) (d : dataset) (cid : Z) (c : connection).
Hypothesis Hd : getDataset E id = Some d.
Hypothesis Hc : ds_connectionId d = Some cid.
Hypothesis Hg : getConnection E (JNum cid) = Some c.

Lemma data_route_sql_query q ps :
  conn_type c = "sql" ->
  In (EvPoolQuery q ps) (snd (get_dataset_data E id cq [])) ->
  q = select_sql_query d cq /\ ps = [].
Proof.
  intros Ht. unfold_handler. rewrite Hd, Hc, Hg, Ht.
  split_all; intros Hin; simpl in Hin; intuition congruence.
Qed.

Lemma data_route_fetch url o :
  conn_type c = "rest" ->
  In (EvFetch url o) (snd (get_dataset_data E id cq [])) ->
  o = rest_fetch_options (conn_config c).
Proof.
  intros Ht. unfold_handler. rewrite Hd, Hc, Hg, Ht.
  split_all; intros Hin; simpl in Hin; intuition congruence.
Qed.

End DataRoute.

(** C4: in the data route's sql branch, the executed statement is the
    request's [customQuery] when it is a non-empty string; otherwise the
    dataset's non-empty stored query; otherwise, when the dataset config
    names a table [t], [SELECT * FROM t LIMIT 100]. *)
Theorem sql_query_precedence (E : env) (id : Z) (cq : option jsval)
  (d : dataset) (cid : Z) (c : connection) :
  getDataset E id = Some d ->
  ds_connectionId d = Some cid ->
  getConnection E (JNum cid) = Some c ->
  conn_type c = "sql" ->
  forall q ps, In (EvPoolQuery q ps) (snd (get_dataset_data E id cq [])) ->
    (forall s, override_query cq = Some s -> q = s) /\
    (override_query cq = None -> forall dq, stored_query d = Some dq -> q = dq) /\
    (override_query cq = None -> stored_query d = None ->
     forall t, jget (Some (ds_config d)) "table" = Some t -> truthy (Some t) = true ->
     q = "SELECT * FROM " ++ js_to_string t ++ " LIMIT 100").
Proof.
  intros Hd Hc Hg Ht q ps Hin.
  destruct (data_route_sql_query E id cq d cid c Hd Hc Hg q ps Ht Hin) as [-> _].
  split; [|split].
  - apply select_override.
  - intros Ho dq. apply select_stored, Ho.
  - intros Ho Hs t. apply select_table; assumption.
Qed.

(** C6: for a rest connection whose [config.auth.type] is ['basic'], every
    outgoing request of the data route carries the header
    [Authorization: Basic base64(username:password)]. *)
Theorem rest_basic_authorization (E : env) (id : Z) (cq : option jsval)
  (d : dataset) (cid : Z) (c : connection) (auth : jsval) :
  getDataset E id = Some d ->
  ds_connectionId d = Some cid ->
  getConnection E (JNum cid) = Some c ->
  conn_type c = "rest" ->
  jget (Some (conn_config c)) "auth" = Some auth ->
  is_str (jget (Some auth) "type") "basic" = true ->
  forall url o, In (EvFetch url o) (snd (get_dataset_data E id cq [])) ->
    jget (fo_headers o) "Authorization" =
      Some (JStr ("Basic " ++ base64 (tmpl (jget (Some auth) "username") ++ ":"
                                      ++ tmpl (jget (Some auth) "password")))).
Proof.
  intros Hd Hc Hg Ht Ha Hb url o Hin.
  rewrite (data_route_fetch E id cq d cid c Hd Hc Hg url o Ht Hin).
  apply rest_options_basic; assumption.
Qed.

(** C7: when the upstream answers a non-2xx status, the data route
    answers 400 with message "REST API request failed" and the error
    "API returned <status>: <statusText>", and no rows. *)
Theorem rest_upstream_error_400 (E : env) (id : Z) (cq : option jsval)
  (d : dataset) (cid : Z) (c : connection) :
  getDataset E id = Some d ->
  ds_connectionId d = Some cid ->
  getConnection E (JNum cid) = Some c ->
  conn_type c = "rest" ->
  forall url o resp,
    In (EvFetch url o) (snd (get_dataset_data E id cq [])) ->
    fetch E url o = Ok resp ->
    resp_ok resp = false ->
    fst (get_dataset_data E id cq []) =
      Ok (mkResponse 400 (err_body "REST API request failed"
            ("API returned " ++ z_to_string (resp_status resp) ++ ": "
             ++ resp_statusText resp))).
Proof.
  intros Hd Hc Hg Ht url o resp Hin Hf Hok. revert Hin.
  unfold_handler. rewrite Hd, Hc, Hg, Ht.
  split_all; intros Hin; simpl in Hin |- *;
    rewrite ?Bool.negb_false_iff, ?Bool.negb_true_iff in *; intuition congruence.
Qed.

Lemma js_or_config_object cfg k1 k2 v :
  js_or (jget (Some cfg) k1) (jget (Some cfg) k2) = Some v -> truthy (Some cfg) = true.
Proof. destruct cfg; try discriminate; reflexivity. Qed.

(** C8: a csv connection with neither [csvData] nor [fileContent] gets a
    400 ("No CSV data found in connection") and nothing is parsed; when a
    payload is present it is parsed with the config's [delimiter] (default
    ","), header flag ([hasHeaders !== false]), quote character (default
    the double quote) and [trimFields !== false]. *)
Theorem csv_payload_and_options (E : env) (id : Z) (cq : option jsval)
  (d : dataset) (cid : Z) :
  getDataset E id = Some d ->
  ds_connectionId d = Some cid ->
  (forall c, getConnection E (JNum cid) = Some c -> conn_type c = "csv" ->
     truthy (jget (Some (conn_config c)) "csvData") = false ->
     truthy (jget (Some (conn_config c)) "fileContent") = false ->
     fst (get_dataset_data E id cq []) = Ok (R 400 "No CSV data found in connection")
     /\ forall content opts,
          ~ In (EvParseCSV content opts) (snd (get_dataset_data E id cq []))) /\
  (forall c content, getConnection E (JNum cid) = Some c -> conn_type c = "csv" ->
     js_or (jget (Some (conn_config c)) "csvData")
           (jget (Some (conn_config c)) "fileContent") = Some content ->
     truthy (Some content) = true ->
     In (EvParseCSV content (csv_options_of (conn_config c)))
        (snd (get_dataset_data E id cq []))).
Proof.
  intros Hd Hc. split.
  - intros c Hg Ht Hcsv Hfile. unfold_handler. rewrite Hd, Hc, Hg, Ht.
    unfold js_or. rewrite Hcsv.
    destruct (jget (Some (conn_config c)) "fileContent") as [v|];
      [rewrite Hfile, andb_false_r|]; simpl;
      (split; [reflexivity | intros ? ? Hin; simpl in Hin; intuition discriminate]).
  - intros c content Hg Ht Hjs Htr. unfold_handler. rewrite Hd, Hc, Hg, Ht, Hjs.
    rewrite (js_or_config_object _ _ _ _ Hjs), Htr. simpl.
    unfold csv_options_of.
    destruct (parseCSV E content _); simpl; intuition.
Qed.

(** C1 (counterexample): in the data route, a dataset with id 5 and query
    [SELECT a FROM t] and the override [SELECT * FROM dataset_5] executes
    the override alone, not the CTE-wrapped statement. *)
Lemma data_route_override_not_wrapped :
  executed_queries
    (snd (get_dataset_data (fixture_env cte_dataset pg_connection) 5
            (Some (JStr "SELECT * FROM dataset_5")) []))
  = ["SELECT * FROM dataset_5"]
  /\ ~ In "WITH dataset_5 AS (SELECT a FROM t) SELECT * FROM dataset_5"
         (executed_queries
            (snd (get_dataset_data (fixture_env cte_dataset pg_connection) 5
                    (Some (JStr "SELECT * FROM dataset_5")) []))).
Proof.
  assert (H : executed_queries
                (snd (get_dataset_data (fixture_env cte_dataset pg_connection) 5
                        (Some (JStr "SELECT * FROM dataset_5")) []))
              = ["SELECT * FROM dataset_5"]) by (vm_compute; reflexivity).
  rewrite H. split; [reflexivity|]. simpl. intuition discriminate.
Qed.

Lemma cte_query_stored d query dq :
  stored_query d = Some dq ->
  cte_query d query = "WITH dataset_" ++ z_to_string (ds_id d) ++ " AS (" ++ dq ++ ") " ++ query.
Proof.
  unfold stored_query, cte_query. destruct (ds_query d) as [q|]; [|discriminate].
  destruct (String.eqb q ""); congruence.
Qed.

(** C1 (amended): the dataset-query handler executes exactly
    [WITH dataset_<id> AS (<dataset query>) <query>] when the dataset has a
    non-empty query; the data route does not wrap, it executes a non-empty
    [customQuery] verbatim. *)
Theorem dataset_query_cte_wrap (E : env) (d : dataset) (cs : jsval) (query dq : string) :
  stored_query d = Some dq ->
  executed_queries (snd (execute_dataset_query_pool E d cs query [])) =
    ["WITH dataset_" ++ z_to_string (ds_id d) ++ " AS (" ++ dq ++ ") " ++ query]
  /\ (forall id cq cid c,
        getDataset E id = Some d -> ds_connectionId d = Some cid ->
        getConnection E (JNum cid) = Some c -> conn_type c = "sql" ->
        override_query cq = Some query ->
        forall q ps, In (EvPoolQuery q ps) (snd (get_dataset_data E id cq [])) -> q = query).
Proof.
  intros Hs. split.
  - rewrite <- (cte_query_stored d query dq Hs). unfold_handler.
    split_all; reflexivity.
  - intros id cq cid c Hd Hc Hg Ht Ho q ps Hin.
    destruct (data_route_sql_query E id cq d cid c Hd Hc Hg q ps Ht Hin) as [-> _].
    apply select_override, Ho.
Qed.

(** ** Witnesses: the claims at concrete requests *)

Lemma dataset_query_cte_wrap_witness :
  executed_queries
    (snd (execute_dataset_query_pool (fixture_env cte_dataset pg_connection) cte_dataset
            (JStr "postgres://db") "SELECT * FROM dataset_5" []))
  = ["WITH dataset_" ++ z_to_string 5 ++ " AS (" ++ "SELECT a FROM t" ++ ") "
     ++ "SELECT * FROM dataset_5"]
  /\ "WITH dataset_" ++ z_to_string 5 ++ " AS (" ++ "SELECT a FROM t" ++ ") "
     ++ "SELECT * FROM dataset_5"
     = "WITH dataset_5 AS (SELECT a FROM t) SELECT * FROM dataset_5".
Proof.
  split.
  - apply (dataset_query_cte_wrap (fixture_env cte_dataset pg_connection) cte_dataset
             (JStr "postgres://db") "SELECT * FROM dataset_5" "SELECT a FROM t").
    reflexivity.
  - vm_compute. reflexivity.
Defined.

Lemma sql_unresolvable_config_400_witness :
  fst (get_dataset_data (fixture_env table_dataset partial_pg_connection) 7 None [])
    = Ok (R 400 incomplete_msg)
  /\ Forall (fun e => is_pool_event e = false)
       (snd (get_dataset_data (fixture_env table_dataset partial_pg_connection) 7 None [])).
Proof.
  apply (sql_unresolvable_config_400 (fixture_env table_dataset partial_pg_connection)
           7 None table_dataset 1 partial_pg_connection); try reflexivity.
  left. reflexivity.
Defined.

Lemma sql_query_precedence_witness :
  (forall s, override_query (Some (JStr "SELECT 1")) = Some s -> "SELECT 1" = s) /\
  (override_query (Some (JStr "SELECT 1")) = None ->
   forall dq, stored_query cte_dataset = Some dq -> "SELECT 1" = dq) /\
  (override_query (Some (JStr "SELECT 1")) = None -> stored_query cte_dataset = None ->
   forall t, jget (Some (ds_config cte_dataset)) "table" = Some t -> truthy (Some t) = true ->
   "SELECT 1" = "SELECT * FROM " ++ js_to_string t ++ " LIMIT 100").
Proof.
  apply (sql_query_precedence (fixture_env cte_dataset pg_connection) 5
           (Some (JStr "SELECT 1")) cte_dataset 1 pg_connection)
    with (ps := []); try reflexivity.
  vm_compute. intuition.
Defined.

Lemma connection_string_verbatim_witness :
  uses_connection_string (conn_config pg_connection)
    (snd (get_dataset_data (fixture_env cte_dataset pg_connection) 5 None [])).
Proof.
  apply (proj1 (connection_string_verbatim (fixture_env cte_dataset pg_connection)
                  pg_connection eq_refl eq_refl) 5%Z None cte_dataset 1%Z);
    reflexivity.
Defined.

Lemma rest_basic_authorization_witness :
  jget (fo_headers (rest_fetch_options (conn_config rest_connection))) "Authorization"
    = Some (JStr ("Basic " ++ base64 ("Aladdin" ++ ":" ++ "open sesame")))
  /\ "Basic " ++ base64 ("Aladdin" ++ ":" ++ "open sesame")
     = "Basic QWxhZGRpbjpvcGVuIHNlc2FtZQ==".
Proof.
  split.
  - apply (rest_basic_authorization (fixture_env cte_dataset rest_connection) 5 None
             cte_dataset 1 rest_connection
             (JObj [("type", JStr "basic"); ("username", JStr "Aladdin");
                    ("password", JStr "open sesame")]))
      with (url := JStr "https://api.example.com/items"); try reflexivity.
    vm_compute. intuition.
  - vm_compute. reflexivity.
Defined.

Lemma rest_upstream_error_400_witness :
  fst (get_dataset_data (fixture_env cte_dataset rest_connection) 5 None []) =
    Ok (mkResponse 400 (err_body "REST API request failed"
          ("API returned " ++ z_to_string 500 ++ ": " ++ "Internal Server Error"))).
Proof.
  apply (rest_upstream_error_400 (fixture_env cte_dataset rest_connection) 5 None
           cte_dataset 1 rest_connection eq_refl eq_refl eq_refl eq_refl
           (JStr "https://api.example.com/items")
           (rest_fetch_options (conn_config rest_connection))
           (mkFetchResponse 500 "Internal Server Error")).
  - vm_compute. intuition.
  - reflexivity.
  - vm_compute. reflexivity.
Defined.

Lemma csv_payload_and_options_witness :
  (fst (get_dataset_data (fixture_env cte_dataset empty_csv_connection) 5 None [])
     = Ok (R 400 "No CSV data found in connection")
   /\ forall content opts, ~ In (EvParseCSV content opts)
        (snd (get_dataset_data (fixture_env cte_dataset empty_csv_connection) 5 None [])))
  /\ In (EvParseCSV (JStr "a,b") (csv_options_of (conn_config csv_connection)))
        (snd (get_dataset_data (fixture_env cte_dataset csv_connection) 5 None [])).
Proof.
  split.
  - apply (proj1 (csv_payload_and_options (fixture_env cte_dataset empty_csv_connection)
                    5%Z None cte_dataset 1%Z eq_refl eq_refl) empty_csv_connection);
      reflexivity.
  - apply (proj2 (csv_payload_and_options (fixture_env cte_dataset csv_connection)
                    5%Z None cte_dataset 1%Z eq_refl eq_refl) csv_connection (JStr "a,b"));
      reflexivity.
Defined.

Lemma other_type_empty_rows_witness :
  fst (get_dataset_data (fixture_env cte_dataset other_connection) 5 None [])
    = Ok (mkResponse 200 (JArr [])).
Proof.
  apply (other_type_empty_rows (fixture_env cte_dataset other_connection) 5 None
           cte_dataset 1 other_connection); try reflexivity; discriminate.
Defined.

Lemma null_connection_id_400_witness :
  get_dataset_data (fixture_env orphan_dataset pg_connection) 9 None [] =
    (Ok (R 400 "Dataset has no associated connection"), [EvGetDataset 9]).
Proof.
  apply (null_connection_id_400 (fixture_env orphan_dataset pg_connection) 9 None
           orphan_dataset); reflexivity.
Defined.

(** ** Further properties of the routes *)

Lemma string_param_some v s :
  string_param v = Some s -> v = Some (JStr s) /\ String.eqb s "" = false.
Proof.
  destruct v as [[]|]; simpl; try discriminate.
  destruct (String.eqb s0 "") eqn:Hs; [discriminate|]. intros H. injection H as <-. auto.
Qed.

Lemma truthy_nonempty_str s : String.eqb s "" = false -> truthy (Some (JStr s)) = true.
Proof. intros H. simpl. rewrite H. reflexivity. Qed.

(** The request checks of the custom-query route: a missing or falsy
    [connectionId] gives 400 "Connection ID is required", and otherwise a
    [query] that is not a non-empty string gives 400 "Valid SQL query is
    required"; in both cases nothing is looked up and no pool is opened. *)
Theorem execute_query_request_checks (E : env) (cid q : option jsval) :
  (truthy cid = false ->
   execute_query E cid q [] = (Ok (R 400 "Connection ID is required"), [])) /\
  (truthy cid = true -> string_param q = None ->
   execute_query E cid q [] = (Ok (R 400 "Valid SQL query is required"), [])).
Proof.
  split; intros Hc; unfold_handler; rewrite Hc; [reflexivity|].
  intros Hq. destruct cid as [c|]; [|discriminate]. simpl.
  destruct q as [[]|]; simpl in Hq |- *; try reflexivity.
  destruct (String.eqb s ""); [reflexivity | discriminate].
Qed.

(** The same checks in the table-schema route, with [table] in place of
    [query] ("Table name is required"). *)
Theorem table_schema_request_checks (E : env) (cid t : option jsval) :
  (truthy cid = false ->
   get_table_schema E cid t [] = (Ok (R 400 "Connection ID is required"), [])) /\
  (truthy cid = true -> string_param t = None ->
   get_table_schema E cid t [] = (Ok (R 400 "Table name is required"), [])).
Proof.
  split; intros Hc; unfold_handler; rewrite Hc; [reflexivity|].
  intros Ht. destruct cid as [c|]; [|discriminate]. simpl.
  destruct t as [[]|]; simpl in Ht |- *; try reflexivity.
  destruct (String.eqb s ""); [reflexivity | discriminate].
Qed.

(** The three SQL connection routes refuse a connection that is not of type
    sql with 400 "Connection must be of type 'sql'" right after the
    connection lookup, before any pool is created. *)
Theorem sql_routes_reject_other_types (E : env) (c : connection) :
  conn_type c <> "sql" ->
  (forall cid q s, getConnection E cid = Some c -> truthy (Some cid) = true ->
     string_param q = Some s ->
     execute_query E (Some cid) q [] =
       (Ok (R 400 "Connection must be of type 'sql'"), [EvGetConnection cid])) /\
  (forall id, getConnection E (JNum id) = Some c ->
     get_tables E id [] =
       (Ok (R 400 "Connection must be of type 'sql'"), [EvGetConnection (JNum id)])) /\
  (forall cid t s, getConnection E cid = Some c -> truthy (Some cid) = true ->
     string_param t = Some s ->
     get_table_schema E (Some cid) t [] =
       (Ok (R 400 "Connection must be of type 'sql'"), [EvGetConnection cid])).
Proof.
  intros Ht. apply String.eqb_neq in Ht. split; [|split].
  - intros cid q s Hg Hc Hq. destruct (string_param_some _ _ Hq) as [-> Hs].
    unfold_handler. rewrite Hc, Hs, Hg, Ht. reflexivity.
  - intros id Hg. unfold_handler. rewrite Hg, Ht. reflexivity.
  - intros cid t s Hg Hc Hq. destruct (string_param_some _ _ Hq) as [-> Hs].
    unfold_handler. rewrite Hc, Hs, Hg, Ht. reflexivity.
Qed.

(** An unknown connection id gives 404 "Connection not found" in the three
    SQL connection routes, with the lookup as the only effect. *)
Theorem sql_routes_unknown_connection (E : env) :
  (forall cid q s, getConnection E cid = None -> truthy (Some cid) = true ->
     string_param q = Some s ->
     execute_query E (Some cid) q [] = (Ok (R 404 "Connection not found"), [EvGetConnection cid])) /\
  (forall id, getConnection E (JNum id) = None ->
     get_tables E id [] = (Ok (R 404 "Connection not found"), [EvGetConnection (JNum id)])) /\
  (forall cid t s, getConnection E cid = None -> truthy (Some cid) = true ->
     string_param t = Some s ->
     get_table_schema E (Some cid) t [] =
       (Ok (R 404 "Connection not found"), [EvGetConnection cid])).
Proof.
  split; [|split].
  - intros cid q s Hg Hc Hq. destruct (string_param_some _ _ Hq) as [-> Hs].
    unfold_handler. rewrite Hc, Hs, Hg. reflexivity.
  - intros id Hg. unfold_handler. rewrite Hg. reflexivity.
  - intros cid t s Hg Hc Hq. destruct (string_param_some _ _ Hq) as [-> Hs].
    unfold_handler. rewrite Hc, Hs, Hg. reflexivity.
Qed.

(** The data route answers 404 "Dataset not found" for an unknown dataset
    (only the dataset lookup happens) and 404 "Connection not found" when
    the dataset's connection does not resolve. *)
Theorem data_route_not_found (E : env) (id : Z) (cq : option jsval) :
  (getDataset E id = None ->
   get_dataset_data E id cq [] = (Ok (R 404 "Dataset not found"), [EvGetDataset id])) /\
  (forall d cid, getDataset E id = Some d -> ds_connectionId d = Some cid ->
     getConnection E (JNum cid) = None ->
     get_dataset_data E id cq [] =
       (Ok (R 404 "Connection not found"), [EvGetDataset id; EvGetConnection (JNum cid)])).
Proof.
  split.
  - intros Hd. unfold_handler. rewrite Hd. reflexivity.
  - intros d cid Hd Hc Hg. unfold_handler. rewrite Hd, Hc, Hg. reflexivity.
Qed.

(** Closing a leaf of the case analysis from the facts about its trace. *)
Ltac trace_leaf :=
  intros; simpl in *;
  rewrite ?Bool.negb_false_iff, ?Bool.negb_true_iff in *;
  intuition congruence.

(** A query that the database rejects with [msg] (the pool then closing
    normally) is answered 400 with the route's message and [error: msg]:
    "SQL query execution failed" in the data and custom-query routes,
    "Failed to retrieve database tables" and "Failed to retrieve table
    schema" in the other two. *)
Theorem sql_query_rejected_400 (E : env) (cs : jsval) (q : string) (ps : list jsval)
  (msg : string) :
  pool_query E cs q ps = Exc msg -> pool_end E cs = Ok tt ->
  (forall id cq, In (EvPoolNew cs) (snd (get_dataset_data E id cq [])) ->
     In (EvPoolQuery q ps) (snd (get_dataset_data E id cq [])) ->
     fst (get_dataset_data E id cq []) =
       Ok (mkResponse 400 (err_body "SQL query execution failed" msg))) /\
  (forall cid qp, In (EvPoolNew cs) (snd (execute_query E cid qp [])) ->
     In (EvPoolQuery q ps) (snd (execute_query E cid qp [])) ->
     fst (execute_query E cid qp []) =
       Ok (mkResponse 400 (err_body "SQL query execution failed" msg))) /\
  (forall id, In (EvPoolNew cs) (snd (get_tables E id [])) ->
     In (EvPoolQuery q ps) (snd (get_tables E id [])) ->
     fst (get_tables E id []) =
       Ok (mkResponse 400 (err_body "Failed to retrieve database tables" msg))) /\
  (forall cid t, In (EvPoolNew cs) (snd (get_table_schema E cid t [])) ->
     In (EvPoolQuery q ps) (snd (get_table_schema E cid t [])) ->
     fst (get_table_schema E cid t []) =
       Ok (mkResponse 400 (err_body "Failed to retrieve table schema" msg))).
Proof.
  intros Hq He. split; [|split; [|split]]; intros *; unfold_handler; split_all; trace_leaf.
Qed.

(** When the query answers [rows] and the pool closes normally, the data
    and custom-query routes and the schema route answer 200 with the rows,
    and the table listing answers 200 with the [table_name] of each row. *)
Theorem sql_query_success_200 (E : env) (cs : jsval) (q : string) (ps : list jsval)
  (rows : list jsval) :
  pool_query E cs q ps = Ok rows -> pool_end E cs = Ok tt ->
  (forall id cq, In (EvPoolNew cs) (snd (get_dataset_data E id cq [])) ->
     In (EvPoolQuery q ps) (snd (get_dataset_data E id cq [])) ->
     fst (get_dataset_data E id cq []) = Ok (mkResponse 200 (JArr rows))) /\
  (forall cid qp, In (EvPoolNew cs) (snd (execute_query E cid qp [])) ->
     In (EvPoolQuery q ps) (snd (execute_query E cid qp [])) ->
     fst (execute_query E cid qp []) = Ok (mkResponse 200 (JArr rows))) /\
  (forall id, In (EvPoolNew cs) (snd (get_tables E id [])) ->
     In (EvPoolQuery q ps) (snd (get_tables E id [])) ->
     fst (get_tables E id []) = Ok (mkResponse 200 (JArr (map table_name_of rows)))) /\
  (forall cid t, In (EvPoolNew cs) (snd (get_table_schema E cid t [])) ->
     In (EvPoolQuery q ps) (snd (get_table_schema E cid t [])) ->
     fst (get_table_schema E cid t []) = Ok (mkResponse 200 (JArr rows))).
Proof.
  intros Hq He. split; [|split; [|split]]; intros *; unfold_handler; split_all; trace_leaf.
Qed.


(** A network failure of [fetch] or a body that [response.json()] rejects
    is answered 400 "REST API request failed" with the failure's message as
    [error]. *)
Theorem rest_request_failures_400 (E : env) (id : Z) (cq : option jsval)
  (url : jsval) (o : fetch_options) (msg : string) :
  In (EvFetch url o) (snd (get_dataset_data E id cq [])) ->
  (fetch E url o = Exc msg ->
   fst (get_dataset_data E id cq []) =
     Ok (mkResponse 400 (err_body "REST API request failed" msg))) /\
  (forall resp, fetch E url o = Ok resp -> resp_ok resp = true ->
   response_json E resp = Exc msg ->
   fst (get_dataset_data E id cq []) =
     Ok (mkResponse 400 (err_body "REST API request failed" msg))).
Proof.
  intros Hin. split; [intros Hf | intros resp Hf Hok Hj]; revert Hin;
    unfold_handler; split_all; trace_leaf.
Qed.

(** A successful upstream call (2xx, JSON body [j]) answers 200 with the
    rows [extractRESTData] takes from [j] at the config's [resultPath]. *)
Theorem rest_success_200 (E : env) (id : Z) (cq : option jsval)
  (d : dataset) (cid : Z) (c : connection) :
  getDataset E id = Some d ->
  ds_connectionId d = Some cid ->
  getConnection E (JNum cid) = Some c ->
  conn_type c = "rest" ->
  forall url o resp j,
    In (EvFetch url o) (snd (get_dataset_data E id cq [])) ->
    fetch E url o = Ok resp -> resp_ok resp = true -> response_json E resp = Ok j ->
    fst (get_dataset_data E id cq []) =
      Ok (mkResponse 200 (JArr (extractRESTData E j (jget (Some (conn_config c)) "resultPath")))).
Proof.
  intros Hd Hc Hg Ht url o resp j Hin Hf Hok Hj. revert Hin.
  unfold_handler. rewrite Hd, Hc, Hg, Ht. split_all; trace_leaf.
Qed.

(** A rest connection without a (truthy) [url] is answered 400 "REST
    connection URL is missing" and no request is sent. *)
Theorem rest_missing_url_400 (E : env) (id : Z) (cq : option jsval)
  (d : dataset) (cid : Z) (c : connection) :
  getDataset E id = Some d ->
  ds_connectionId d = Some cid ->
  getConnection E (JNum cid) = Some c ->
  conn_type c = "rest" ->
  truthy (jget (Some (conn_config c)) "url") = false ->
  fst (get_dataset_data E id cq []) = Ok (R 400 "REST connection URL is missing")
  /\ forall url o, ~ In (EvFetch url o) (snd (get_dataset_data E id cq [])).
Proof.
  intros Hd Hc Hg Ht Hu. unfold_handler. rewrite Hd, Hc, Hg, Ht.
  destruct (jget (Some (conn_config c)) "url") as [u|];
    [rewrite Hu, andb_false_r|]; simpl;
    (split; [reflexivity | intros ? ? Hin; simpl in Hin; intuition discriminate]).
Qed.

(** A CSV text that [parseCSV] throws on is not a 400: the error reaches
    the route's outer [catch] and is answered 500 "Internal server error". *)
Theorem csv_parse_failure_500 (E : env) (id : Z) (cq : option jsval)
  (content : jsval) (opts : csv_options) (msg : string) :
  In (EvParseCSV content opts) (snd (get_dataset_data E id cq [])) ->
  parseCSV E content opts = Exc msg ->
  fst (get_dataset_data E id cq []) = Ok (R 500 "Internal server error").
Proof. intros Hin Hp. revert Hin. unfold_handler. split_all; trace_leaf. Qed.


Lemma cte_query_plain d query : stored_query d = None -> cte_query d query = query.
Proof.
  unfold stored_query, cte_query. destruct (ds_query d) as [q|]; [|reflexivity].
  destruct (String.eqb q ""); [reflexivity | discriminate].
Qed.

(** The dataset-query handler runs the request's query unchanged when the
    dataset has no stored query (null or empty). *)
Theorem dataset_query_plain (E : env) (d : dataset) (cs : jsval) (query : string) :
  stored_query d = None ->
  executed_queries (snd (execute_dataset_query_pool E d cs query [])) = [query].
Proof.
  intros Hs. transitivity [cte_query d query]; [|rewrite (cte_query_plain d query Hs); reflexivity].
  unfold_handler. split_all; reflexivity.
Qed.

Lemma auth_headers_other auth hs k :
  String.eqb k "Authorization" = false ->
  exists hs', auth_headers auth (Some (JObj hs)) = Some (JObj hs')
              /\ assoc_get k hs' = assoc_get k hs.
Proof.
  intros Hk. unfold auth_headers.
  destruct (truthy auth);
    [destruct (is_str (jget auth "type") "basic");
     [|destruct (is_str (jget auth "type") "bearer" && truthy (jget auth "token"))]|];
    eexists; (split; [reflexivity|]); try reflexivity; apply assoc_get_set_other, Hk.
Qed.

(** The request built for a rest connection: the method is GET unless
    [config.method] is set; a body is sent only for POST, PUT or PATCH, and
    then it is [config.body] with [Content-Type: application/json]. *)
Theorem rest_request_method_body (E : env) (id : Z) (cq : option jsval)
  (d : dataset) (cid : Z) (c : connection) :
  getDataset E id = Some d ->
  ds_connectionId d = Some cid ->
  getConnection E (JNum cid) = Some c ->
  conn_type c = "rest" ->
  forall url o, In (EvFetch url o) (snd (get_dataset_data E id cq [])) ->
    (truthy (jget (Some (conn_config c)) "method") = false -> fo_method o = JStr "GET") /\
    (is_mutating (fo_method o) = false -> fo_body o = None) /\
    (forall b, fo_body o = Some b ->
       jget (Some (conn_config c)) "body" = Some b /\
       jget (fo_headers o) "Content-Type" = Some (JStr "application/json")).
Proof.
  intros Hd Hc Hg Ht url o Hin.
  rewrite (data_route_fetch E id cq d cid c Hd Hc Hg url o Ht Hin).
  remember (conn_config c) as config eqn:Hcfg. clear Hcfg.
  split; [|split].
  - intros Hf. unfold rest_fetch_options, js_or_default, js_or. rewrite Hf.
    destruct (is_mutating (JStr "GET") && _); reflexivity.
  - unfold rest_fetch_options.
    destruct (is_mutating _ && truthy _) eqn:Hm; [|reflexivity].
    cbn [fo_method]. apply andb_prop in Hm as [Hm _]. congruence.
  - intros b. unfold rest_fetch_options.
    destruct (is_mutating _ && truthy _); [|discriminate].
    cbn [fo_body fo_headers]. intros Hb. split; [exact Hb|].
    cbn [jget]. apply assoc_get_set_same.
Qed.

(** Bearer authentication adds [Authorization: Bearer <token>] when a
    token is set, and every other header of [config.headers] is sent as
    configured. *)
Theorem rest_bearer_and_headers (E : env) (id : Z) (cq : option jsval)
  (d : dataset) (cid : Z) (c : connection) :
  getDataset E id = Some d ->
  ds_connectionId d = Some cid ->
  getConnection E (JNum cid) = Some c ->
  conn_type c = "rest" ->
  forall url o, In (EvFetch url o) (snd (get_dataset_data E id cq [])) ->
    (forall auth, jget (Some (conn_config c)) "auth" = Some auth ->
       is_str (jget (Some auth) "type") "bearer" = true ->
       truthy (jget (Some auth) "token") = true ->
       jget (fo_headers o) "Authorization" =
         Some (JStr ("Bearer " ++ tmpl (jget (Some auth) "token")))) /\
    (forall hs k, jget (Some (conn_config c)) "headers" = Some (JObj hs) ->
       k <> "Authorization" -> k <> "Content-Type" ->
       jget (fo_headers o) k = assoc_get k hs).
Proof.
  intros Hd Hc Hg Ht url o Hin.
  rewrite (data_route_fetch E id cq d cid c Hd Hc Hg url o Ht Hin).
  split.
  - intros auth Ha Hb Htok. unfold rest_fetch_options, auth_headers. rewrite Ha.
    assert (Hta : truthy (Some auth) = true)
      by (destruct auth; try discriminate; reflexivity).
    assert (Hnb : is_str (jget (Some auth) "type") "basic" = false).
    { destruct (jget (Some auth) "type") as [[]|]; try discriminate.
      cbn [is_str] in *. apply String.eqb_eq in Hb. subst. reflexivity. }
    rewrite Hta, Hnb, Hb, Htok. cbn iota beta.
    destruct (is_mutating _ && truthy _); cbn [fo_headers spread_fields jget].
    + rewrite assoc_get_set_other by reflexivity. apply assoc_get_set_same.
    + apply assoc_get_set_same.
  - intros hs k Hh Ha Hct. apply String.eqb_neq in Ha, Hct.
    unfold rest_fetch_options. rewrite Hh. simpl truthy. cbv iota.
    destruct (auth_headers_other (jget (Some (conn_config c)) "auth") hs k Ha)
      as [hs' [-> Hk]].
    destruct (is_mutating _ && truthy _); simpl.
    + rewrite assoc_get_set_other by exact Hct. exact Hk.
    + exact Hk.
Qed.

(** ** The dashboard-widget routes *)

Ltac widget_cases :=
  unfold DashboardWidgets.add_widget_to_dashboard,
    DashboardWidgets.remove_widget_from_dashboard,
    DashboardWidgets.update_widget_position, DashboardWidgets.lookup_both in *.

(** A missing dashboard answers 404 "Dashboard not found" after the
    dashboard lookup alone; a missing widget answers 404 "Widget not found"
    after both lookups; in neither case is a storage write made, in any of
    the three routes. *)
Theorem widget_routes_lookup_404 (S : DashboardWidgets.store) (d w : Z)
  (pos : option jsval) :
  (DashboardWidgets.getDashboard S d = None ->
     DashboardWidgets.add_widget_to_dashboard S d w pos =
       (R 404 "Dashboard not found", [DashboardWidgets.CGetDashboard d]) /\
     DashboardWidgets.remove_widget_from_dashboard S d w =
       (R 404 "Dashboard not found", [DashboardWidgets.CGetDashboard d]) /\
     DashboardWidgets.update_widget_position S d w pos =
       (R 404 "Dashboard not found", [DashboardWidgets.CGetDashboard d])) /\
  (forall x, DashboardWidgets.getDashboard S d = Some x ->
     DashboardWidgets.getWidget S w = None ->
     let calls := [DashboardWidgets.CGetDashboard d; DashboardWidgets.CGetWidget w] in
     DashboardWidgets.add_widget_to_dashboard S d w pos =
       (R 404 "Widget not found", calls) /\
     DashboardWidgets.remove_widget_from_dashboard S d w =
       (R 404 "Widget not found", calls) /\
     DashboardWidgets.update_widget_position S d w pos =
       (R 404 "Widget not found", calls)).
Proof.
  widget_cases. split.
  - intros Hd. rewrite Hd. repeat split.
  - intros x Hd Hw. rewrite Hd, Hw. repeat split.
Qed.

(** No route writes to storage unless both the dashboard and the widget
    exist, and every write is on the pair named in the request. *)
Theorem widget_routes_write_guard (S : DashboardWidgets.store) (d w : Z)
  (pos : option jsval) (c : DashboardWidgets.call) :
  In c (snd (DashboardWidgets.add_widget_to_dashboard S d w pos)
        ++ snd (DashboardWidgets.remove_widget_from_dashboard S d w)
        ++ snd (DashboardWidgets.update_widget_position S d w pos))%list ->
  DashboardWidgets.is_write c = true ->
  DashboardWidgets.getDashboard S d <> None /\
  DashboardWidgets.getWidget S w <> None /\
  (c = DashboardWidgets.CRemoveWidget d w \/
   exists p, c = DashboardWidgets.CAddWidget d w p \/
             c = DashboardWidgets.CUpdatePosition d w p).
Proof.
  widget_cases.
  destruct (DashboardWidgets.getDashboard S d) eqn:Hd;
    [destruct (DashboardWidgets.getWidget S w) eqn:Hw|].
  - destruct (DashboardWidgets.addWidgetToDashboard S d w _);
    destruct (DashboardWidgets.removeWidgetFromDashboard S d w) as [[]|];
    destruct pos as [p|]; try destruct (truthy (Some p));
    try destruct (DashboardWidgets.updateWidgetPosition S d w p);
    simpl; intros Hin Hwr;
    (split; [discriminate|split; [discriminate|]]);
    repeat (destruct Hin as [<-|Hin]; [try discriminate|]);
    solve [left; reflexivity | right; eexists; (left; reflexivity) || (right; reflexivity)
          | destruct Hin].
  - simpl. intros Hin Hwr.
    repeat (destruct Hin as [<-|Hin]; [discriminate|]). destruct Hin.
  - simpl. intros Hin Hwr.
    repeat (destruct Hin as [<-|Hin]; [discriminate|]). destruct Hin.
Qed.

(** Adding a widget stores [req.body.position] when it is truthy and [{}]
    otherwise, and answers 201 with the stored dashboard widget. *)
Theorem add_widget_position (S : DashboardWidgets.store) (d w : Z)
  (pos : option jsval) (x y : jsval) :
  DashboardWidgets.getDashboard S d = Some x ->
  DashboardWidgets.getWidget S w = Some y ->
  let stored := js_or_default pos (JObj []) in
  (forall p, pos = Some p -> truthy pos = true -> stored = p) /\
  (truthy pos = false -> stored = JObj []) /\
  snd (DashboardWidgets.add_widget_to_dashboard S d w pos) =
    [DashboardWidgets.CGetDashboard d; DashboardWidgets.CGetWidget w;
     DashboardWidgets.CAddWidget d w stored] /\
  (forall dw, DashboardWidgets.addWidgetToDashboard S d w stored = Ok dw ->
     fst (DashboardWidgets.add_widget_to_dashboard S d w pos) = mkResponse 201 dw) /\
  (forall msg, DashboardWidgets.addWidgetToDashboard S d w stored = Exc msg ->
     fst (DashboardWidgets.add_widget_to_dashboard S d w pos) = R 500 "Internal server error").
Proof.
  intros Hd Hw stored. subst stored. widget_cases. rewrite Hd, Hw.
  split; [|split; [|split; [|split]]].
  - intros p -> Ht. unfold js_or_default, js_or. rewrite Ht. reflexivity.
  - intros Hf. unfold js_or_default, js_or. rewrite Hf. reflexivity.
  - destruct (DashboardWidgets.addWidgetToDashboard _ _ _ _); reflexivity.
  - intros dw ->. reflexivity.
  - intros msg ->. reflexivity.
Qed.

(** Removing a widget answers 204 when storage reports a removal and
    404 "Widget is not in the specified dashboard" when it does not. *)
Theorem remove_widget_result (S : DashboardWidgets.store) (d w : Z) (x y : jsval) :
  DashboardWidgets.getDashboard S d = Some x ->
  DashboardWidgets.getWidget S w = Some y ->
  snd (DashboardWidgets.remove_widget_from_dashboard S d w) =
    [DashboardWidgets.CGetDashboard d; DashboardWidgets.CGetWidget w;
     DashboardWidgets.CRemoveWidget d w] /\
  (DashboardWidgets.removeWidgetFromDashboard S d w = Ok true ->
     fst (DashboardWidgets.remove_widget_from_dashboard S d w) = mkResponse 204 JNull) /\
  (DashboardWidgets.removeWidgetFromDashboard S d w = Ok false ->
     fst (DashboardWidgets.remove_widget_from_dashboard S d w) =
       R 404 "Widget is not in the specified dashboard") /\
  (forall msg, DashboardWidgets.removeWidgetFromDashboard S d w = Exc msg ->
     fst (DashboardWidgets.remove_widget_from_dashboard S d w) =
       R 500 "Internal server error").
Proof.
  intros Hd Hw. widget_cases. rewrite Hd, Hw.
  split; [|split; [|split]].
  - destruct (DashboardWidgets.removeWidgetFromDashboard S d w) as [[]|]; reflexivity.
  - intros ->. reflexivity.
  - intros ->. reflexivity.
  - intros msg ->. reflexivity.
Qed.

(** Updating a position rejects a falsy [req.body.position] with 400
    "Position data is required" and no write; a truthy one is written as
    given and the update answers 200. *)
Theorem update_position_required (S : DashboardWidgets.store) (d w : Z)
  (pos : option jsval) (x y : jsval) :
  DashboardWidgets.getDashboard S d = Some x ->
  DashboardWidgets.getWidget S w = Some y ->
  (truthy pos = false ->
     DashboardWidgets.update_widget_position S d w pos =
       (R 400 "Position data is required",
        [DashboardWidgets.CGetDashboard d; DashboardWidgets.CGetWidget w])) /\
  (forall p u, pos = Some p -> truthy pos = true ->
     DashboardWidgets.updateWidgetPosition S d w p = Ok u ->
     DashboardWidgets.update_widget_position S d w pos =
       (mkResponse 200 u,
        [DashboardWidgets.CGetDashboard d; DashboardWidgets.CGetWidget w;
         DashboardWidgets.CUpdatePosition d w p])).
Proof.
  intros Hd Hw. widget_cases. rewrite Hd, Hw. split.
  - intros Hf. destruct pos as [p|]; [rewrite Hf|]; reflexivity.
  - intros p u -> Ht Hu. rewrite Ht, Hu. reflexivity.
Qed.

(** ** Witnesses of the further properties *)

Lemma execute_query_request_checks_witness :
  execute_query (fixture_env cte_dataset pg_connection) (Some (JNum 1)) (Some (JStr "")) []
    = (Ok (R 400 "Valid SQL query is required"), []).
Proof.
  apply (proj2 (execute_query_request_checks (fixture_env cte_dataset pg_connection)
                  (Some (JNum 1)) (Some (JStr "")))); reflexivity.
Defined.

Lemma table_schema_request_checks_witness :
  get_table_schema (fixture_env cte_dataset pg_connection) (Some (JNum 0)) (Some (JStr "users")) []
    = (Ok (R 400 "Connection ID is required"), []).
Proof.
  apply (proj1 (table_schema_request_checks (fixture_env cte_dataset pg_connection)
                  (Some (JNum 0)) (Some (JStr "users")))); reflexivity.
Defined.

Lemma sql_routes_reject_other_types_witness :
  get_tables (fixture_env cte_dataset other_connection) 6 [] =
    (Ok (R 400 "Connection must be of type 'sql'"), [EvGetConnection (JNum 6)]).
Proof.
  apply (proj1 (proj2 (sql_routes_reject_other_types (fixture_env cte_dataset other_connection)
                         other_connection ltac:(discriminate)))); reflexivity.
Defined.

Lemma sql_routes_unknown_connection_witness :
  execute_query (mkEnv (fun _ => None) (fun _ => None) (fun _ _ _ => Ok []) (fun _ => Ok tt)
                   (fun _ _ => Ok []) (fun _ _ => Exc "offline") (fun _ => Ok JNull)
                   (fun _ _ => []))
    (Some (JNum 3)) (Some (JStr "SELECT 1")) [] =
    (Ok (R 404 "Connection not found"), [EvGetConnection (JNum 3)]).
Proof.
  apply (proj1 (sql_routes_unknown_connection
                  (mkEnv (fun _ => None) (fun _ => None) (fun _ _ _ => Ok []) (fun _ => Ok tt)
                     (fun _ _ => Ok []) (fun _ _ => Exc "offline") (fun _ => Ok JNull)
                     (fun _ _ => [])))
           (JNum 3) (Some (JStr "SELECT 1")) "SELECT 1"); reflexivity.
Defined.

Lemma data_route_not_found_witness :
  get_dataset_data (mkEnv (fun _ => Some cte_dataset) (fun _ => None) (fun _ _ _ => Ok [])
                      (fun _ => Ok tt) (fun _ _ => Ok []) (fun _ _ => Exc "offline")
                      (fun _ => Ok JNull) (fun _ _ => []))
    5 None [] =
    (Ok (R 404 "Connection not found"), [EvGetDataset 5; EvGetConnection (JNum 1)]).
Proof.
  apply (proj2 (data_route_not_found
                  (mkEnv (fun _ => Some cte_dataset) (fun _ => None) (fun _ _ _ => Ok [])
                     (fun _ => Ok tt) (fun _ _ => Ok []) (fun _ _ => Exc "offline")
                     (fun _ => Ok JNull) (fun _ _ => []))
                  5 None) cte_dataset 1%Z); reflexivity.
Defined.

Lemma sql_query_rejected_400_witness :
  fst (execute_query (with_db (fixture_env cte_dataset pg_connection)
                        (fun _ _ _ => Exc "relation does not exist") (fun _ => Ok tt))
         (Some (JNum 1)) (Some (JStr "SELECT * FROM missing")) []) =
    Ok (mkResponse 400 (err_body "SQL query execution failed" "relation does not exist")).
Proof.
  apply (proj1 (proj2 (sql_query_rejected_400
                         (with_db (fixture_env cte_dataset pg_connection)
                            (fun _ _ _ => Exc "relation does not exist") (fun _ => Ok tt))
                         (JStr "postgres://db") "SELECT * FROM missing" []
                         "relation does not exist" eq_refl eq_refl)));
    vm_compute; intuition.
Defined.

Lemma sql_query_success_200_witness :
  fst (get_tables (with_db (fixture_env cte_dataset pg_connection)
                     (fun _ _ _ => Ok [JObj [("table_name", JStr "users")]]) (fun _ => Ok tt))
         1 []) =
    Ok (mkResponse 200 (JArr (map table_name_of [JObj [("table_name", JStr "users")]]))).
Proof.
  apply (proj1 (proj2 (proj2 (sql_query_success_200
                                (with_db (fixture_env cte_dataset pg_connection)
                                   (fun _ _ _ => Ok [JObj [("table_name", JStr "users")]])
                                   (fun _ => Ok tt))
                                (JStr "postgres://db") tables_query []
                                [JObj [("table_name", JStr "users")]] eq_refl eq_refl))));
    vm_compute; intuition.
Defined.


Lemma rest_request_failures_400_witness :
  fst (get_dataset_data (with_http (fixture_env cte_dataset rest_connection)
                           (fun _ _ => Exc "ECONNREFUSED") (fun _ => Ok JNull))
         5 None []) =
    Ok (mkResponse 400 (err_body "REST API request failed" "ECONNREFUSED")).
Proof.
  apply (proj1 (rest_request_failures_400
                  (with_http (fixture_env cte_dataset rest_connection)
                     (fun _ _ => Exc "ECONNREFUSED") (fun _ => Ok JNull))
                  5 None (JStr "https://api.example.com/items")
                  (rest_fetch_options (conn_config rest_connection)) "ECONNREFUSED"
                  ltac:(vm_compute; intuition))).
  reflexivity.
Defined.

Lemma rest_success_200_witness :
  fst (get_dataset_data (with_http (fixture_env cte_dataset rest_connection)
                           (fun _ _ => Ok (mkFetchResponse 200 "OK"))
                           (fun _ => Ok (JArr [JNum 1])))
         5 None []) =
    Ok (mkResponse 200 (JArr (extractRESTData (fixture_env cte_dataset rest_connection)
                                (JArr [JNum 1])
                                (jget (Some (conn_config rest_connection)) "resultPath")))).
Proof.
  apply (rest_success_200
           (with_http (fixture_env cte_dataset rest_connection)
              (fun _ _ => Ok (mkFetchResponse 200 "OK")) (fun _ => Ok (JArr [JNum 1])))
           5 None cte_dataset 1 rest_connection eq_refl eq_refl eq_refl eq_refl
           (JStr "https://api.example.com/items")
           (rest_fetch_options (conn_config rest_connection))
           (mkFetchResponse 200 "OK") (JArr [JNum 1])); vm_compute; intuition.
Defined.

Lemma rest_missing_url_400_witness :
  fst (get_dataset_data (fixture_env cte_dataset (mkConnection 3 "rest" (JObj [])))
         5 None []) = Ok (R 400 "REST connection URL is missing").
Proof.
  apply (rest_missing_url_400 (fixture_env cte_dataset (mkConnection 3 "rest" (JObj [])))
           5 None cte_dataset 1 (mkConnection 3 "rest" (JObj []))); reflexivity.
Defined.

Lemma csv_parse_failure_500_witness :
  fst (get_dataset_data (with_csv (fixture_env cte_dataset csv_connection)
                           (fun _ _ => Exc "Unclosed quote"))
         5 None []) = Ok (R 500 "Internal server error").
Proof.
  apply (csv_parse_failure_500
           (with_csv (fixture_env cte_dataset csv_connection) (fun _ _ => Exc "Unclosed quote"))
           5 None (JStr "a,b") (csv_options_of (conn_config csv_connection)) "Unclosed quote");
    vm_compute; intuition.
Defined.


Lemma dataset_query_plain_witness :
  executed_queries
    (snd (execute_dataset_query_pool (fixture_env table_dataset pg_connection) table_dataset
            (JStr "postgres://db") "SELECT count(*) FROM sales" []))
  = ["SELECT count(*) FROM sales"].
Proof.
  apply (dataset_query_plain (fixture_env table_dataset pg_connection) table_dataset
           (JStr "postgres://db") "SELECT count(*) FROM sales"); reflexivity.
Defined.

Lemma rest_request_method_body_witness :
  jget (Some (conn_config bearer_connection)) "body" = Some (JObj [("q", JNum 1)]) /\
  jget (fo_headers (rest_fetch_options (conn_config bearer_connection))) "Content-Type"
    = Some (JStr "application/json").
Proof.
  apply (proj2 (proj2 (rest_request_method_body (fixture_env cte_dataset bearer_connection)
                         5 None cte_dataset 1 bearer_connection eq_refl eq_refl eq_refl eq_refl
                         (JStr "https://api.example.com/items")
                         (rest_fetch_options (conn_config bearer_connection))
                         ltac:(vm_compute; intuition)))
           (JObj [("q", JNum 1)])); vm_compute; reflexivity.
Defined.

Lemma rest_bearer_and_headers_witness :
  jget (fo_headers (rest_fetch_options (conn_config bearer_connection))) "Authorization"
    = Some (JStr ("Bearer " ++ tmpl (Some (JStr "t0k")))).
Proof.
  apply (proj1 (rest_bearer_and_headers (fixture_env cte_dataset bearer_connection)
                  5 None cte_dataset 1 bearer_connection eq_refl eq_refl eq_refl eq_refl
                  (JStr "https://api.example.com/items")
                  (rest_fetch_options (conn_config bearer_connection))
                  ltac:(vm_compute; intuition))
           (JObj [("type", JStr "bearer"); ("token", JStr "t0k")])); reflexivity.
Defined.

Lemma widget_routes_lookup_404_witness :
  DashboardWidgets.remove_widget_from_dashboard widget_store 1 7 =
    (R 404 "Widget not found",
     [DashboardWidgets.CGetDashboard 1; DashboardWidgets.CGetWidget 7]).
Proof.
  apply (proj2 (widget_routes_lookup_404 widget_store 1 7 None) (JObj [("id", JNum 1)]));
    reflexivity.
Defined.

Lemma widget_routes_write_guard_witness :
  DashboardWidgets.getDashboard widget_store 1 <> None /\
  DashboardWidgets.getWidget widget_store 2 <> None /\
  (DashboardWidgets.CUpdatePosition 1 2 (JObj [("x", JNum 3)]) = DashboardWidgets.CRemoveWidget 1 2 \/
   exists p, DashboardWidgets.CUpdatePosition 1 2 (JObj [("x", JNum 3)]) =
               DashboardWidgets.CAddWidget 1 2 p \/
             DashboardWidgets.CUpdatePosition 1 2 (JObj [("x", JNum 3)]) =
               DashboardWidgets.CUpdatePosition 1 2 p).
Proof.
  apply (widget_routes_write_guard widget_store 1 2 (Some (JObj [("x", JNum 3)])));
    vm_compute; intuition.
Defined.

Lemma add_widget_position_witness :
  snd (DashboardWidgets.add_widget_to_dashboard widget_store 1 2 (Some (JNum 0))) =
    [DashboardWidgets.CGetDashboard 1; DashboardWidgets.CGetWidget 2;
     DashboardWidgets.CAddWidget 1 2 (js_or_default (Some (JNum 0)) (JObj []))] /\
  js_or_default (Some (JNum 0)) (JObj []) = JObj [].
Proof.
  destruct (add_widget_position widget_store 1 2 (Some (JNum 0))
              (JObj [("id", JNum 1)]) (JObj [("id", JNum 2)]) eq_refl eq_refl)
    as [_ [Hf [Hs _]]].
  split; [exact Hs | apply Hf; reflexivity].
Defined.

Lemma remove_widget_result_witness :
  fst (DashboardWidgets.remove_widget_from_dashboard widget_store 1 2) =
    R 404 "Widget is not in the specified dashboard".
Proof.
  apply (proj1 (proj2 (proj2 (remove_widget_result widget_store 1 2
                                (JObj [("id", JNum 1)]) (JObj [("id", JNum 2)])
                                eq_refl eq_refl)))); reflexivity.
Defined.

Lemma update_position_required_witness :
  DashboardWidgets.update_widget_position widget_store 1 2 (Some (JStr "")) =
    (R 400 "Position data is required",
     [DashboardWidgets.CGetDashboard 1; DashboardWidgets.CGetWidget 2]).
Proof.
  apply (proj1 (update_position_required widget_store 1 2 (Some (JStr ""))
                  (JObj [("id", JNum 1)]) (JObj [("id", JNum 2)]) eq_refl eq_refl));
    reflexivity.
Defined.
